(** * adsb_proxy: a one-route Flask relay in front of api.adsb.lol

    A shallow embedding of [adsb_proxy.py].  The module has one view
    function, [adsb], registered on the route [/adsb]; it performs one
    outbound [requests.get] and shapes a [flask.Response] from the outcome.

    The Python program talks to three collaborators that are not part of
    the repository: [requests] (outbound HTTP), [print] (standard output)
    and Flask/werkzeug (response objects and routing).  They are modelled
    by what the program observes of them:
    - the network is a scripted environment inside the [World]: the outcome
      of the n-th outbound GET is a function of the URL and timeout it was
      issued with;
    - standard output is the list of records printed so far;
    - a Python computation is a state-and-exception monad [Py] over the
      [World], so that [try ... except Exception as e] is a combinator. *)

From Stdlib Require Import ZArith String Ascii List Lia.
From stdpp Require Import base option gmap strings pretty.

Local Open Scope Z_scope.
Local Open Scope string_scope.

(** ** Characters that a Rocq string literal cannot hold directly *)

(** The double quote, code point 34. *)
Definition DQ : string := String (ascii_of_nat 34) EmptyString.
(** The line feed that [print] appends, code point 10. *)
Definition LF : string := String (ascii_of_nat 10) EmptyString.

(** ** Python values the handler manipulates *)

(** An instance of [Exception], observed through [repr(e)] and [str(e)],
    the only two operations the handler applies to it.  Everything
    [requests.get] raises on a failed call derives from
    [requests.exceptions.RequestException], itself an [OSError], hence an
    [Exception]; the type below is what [except Exception] catches. *)
Record PyException := mkException { repr : string; str : string }.

Module requests.
(** [requests.Response], restricted to the attributes a caller can read
    that describe the upstream answer.  [content] is the body as bytes
    (a Rocq string is a sequence of 8-bit characters). *)
Record Response := mkResponse {
  status_code : Z;
  content : string;
  headers : gmap string string;
}.
End requests.

(** What one call of [requests.get] does: return a response or raise. *)
Inductive Outcome :=
| Returns (r : requests.Response)
| Raises (e : PyException).

(** ** The world outside the handler *)

(** One outbound GET as issued: the URL and the [timeout=] argument. *)
Record Call := mkCall { url : string; timeout : Z }.

Record World := mkWorld {
  (** the upstream and the network in between: what the n-th outbound GET
      (counted from 0) yields when issued with this URL and timeout *)
  upstream : nat → string → Z → Outcome;
  (** the outbound GETs issued so far, oldest first *)
  outbound : list Call;
  (** the records written to standard output so far, oldest first *)
  stdout : list string;
}.

(** ** The monad of Python computations *)

Inductive Result (A : Type) :=
| Return (a : A)
| Raise (e : PyException).
Arguments Return {A} a.
Arguments Raise {A} e.

Definition Py (A : Type) : Type := World → Result A * World.

Definition ret {A} (a : A) : Py A := fun w => (Return a, w).

Definition raise {A} (e : PyException) : Py A := fun w => (Raise e, w).

Definition bind {A B} (m : Py A) (k : A → Py B) : Py B :=
  fun w =>
    match m w with
    | (Return a, w') => k a w'
    | (Raise e, w') => (Raise e, w')
    end.

(** [try: body / except Exception as e: handler e].  Effects of [body]
    up to the raise point are kept, as in Python. *)
Definition try_except {A} (body : Py A) (handler : PyException → Py A) : Py A :=
  fun w =>
    match body w with
    | (Return a, w') => (Return a, w')
    | (Raise e, w') => handler e w'
    end.

(** Lifting of a pure computation that may raise. *)
Definition lift {A} (r : Result A) : Py A := fun w => (r, w).

(** The monad structure, through stdpp's classes: [x ← m; k] and [m;; k]
    below are sequencing of statements. *)
#[export] Instance Py_ret : MRet Py := @ret.
#[export] Instance Py_bind : MBind Py := fun A B k m => bind m k.

(** ** Builtins and library calls *)

(** [sep.join(parts)] *)
Fixpoint join (sep : string) (parts : list string) : string :=
  match parts with
  | [] => EmptyString
  | [p] => p
  | p :: ps => p +:+ sep +:+ join sep ps
  end.

(** [print] with positional arguments, already strings here: they are
    joined by one space and terminated by a line feed, and written as one
    record.  Here standard output takes every record; [full.print] below
    is [print] on a stream that may refuse one. *)
Definition print (args : list string) : Py unit :=
  fun w =>
    (Return tt,
     {| upstream := upstream w;
        outbound := outbound w;
        stdout := stdout w ++ [join " " args +:+ LF] |}).

(** [requests.get(url, timeout=t)]: one outbound GET.  The call is
    recorded, and the environment decides its outcome. *)
Definition requests_get (u : string) (t : Z) : Py requests.Response :=
  fun w =>
    let w' := {| upstream := upstream w;
                 outbound := outbound w ++ [mkCall u t];
                 stdout := stdout w |} in
    match upstream w (length (outbound w)) u t with
    | Returns r => (Return r, w')
    | Raises e => (Raise e, w')
    end.

(** *** The [%] operator on a format string *)

Definition TypeError (msg : string) : PyException :=
  {| repr := "TypeError('" +:+ msg +:+ "')"; str := msg |}.
Definition ValueError (msg : string) : PyException :=
  {| repr := "ValueError('" +:+ msg +:+ "')"; str := msg |}.

Definition map_result {A B} (f : A → B) (r : Result A) : Result B :=
  match r with
  | Return a => Return (f a)
  | Raise e => Raise e
  end.

(** [template % args] for string arguments.  [%s] consumes the next
    argument, [%%] is a literal percent sign; the other conversion
    specifiers do not occur in this program and are reported as the
    [ValueError] Python raises for an unknown one. *)
Fixpoint percent_format (template : string) (args : list string) : Result string :=
  match template with
  | EmptyString =>
      match args with
      | [] => Return EmptyString
      | _ :: _ => Raise (TypeError "not all arguments converted during string formatting")
      end
  | String c rest =>
      if Ascii.eqb c "%" then
        match rest with
        | EmptyString => Raise (ValueError "incomplete format")
        | String d rest' =>
            if Ascii.eqb d "s" then
              match args with
              | [] => Raise (TypeError "not enough arguments for format string")
              | a :: args' => map_result (String.append a) (percent_format rest' args')
              end
            else if Ascii.eqb d "%" then
              map_result (String "%") (percent_format rest' args)
            else Raise (ValueError "unsupported format character")
        end
      else map_result (String c) (percent_format rest args)
  end.

(** *** Formatting of the float constants *)

(** A Python float written as a decimal literal with few digits:
    [mantissa * 10^-scale].  [str] and the f-string conversion of a
    float print the shortest decimal that reads back as the same double,
    which for such a literal is the literal itself. *)
Record PyFloat := mkFloat { mantissa : Z; scale : nat }.

Fixpoint zeros (n : nat) : string :=
  match n with
  | O => EmptyString
  | S n' => String "0" (zeros n')
  end.

(** [digits] left-padded with zeros to [width] characters. *)
Definition zero_pad (width : nat) (digits : string) : string :=
  zeros (width - String.length digits) +:+ digits.

(** [format(x, "")] for a float. *)
Definition format_float (x : PyFloat) : string :=
  let m := Z.abs_N (mantissa x) in
  let p := (10 ^ N.of_nat (scale x))%N in
  (if (mantissa x <? 0)%Z then "-" else EmptyString)
  +:+ pretty (m / p)%N +:+ "."
  +:+ match scale x with
      | O => "0"
      | _ => zero_pad (scale x) (pretty (m mod p)%N)
      end.

(** *** Response objects *)

Module flask.
(** [flask.Response] as the view leaves it: body bytes, status code and
    the header table.  Header names are kept in the spelling the program
    uses; werkzeug compares them without regard to case, and no two
    names below differ only by case. *)
Record Response := mkResponse {
  data : string;
  status : Z;
  headers : gmap string string;
}.

(** [Response(response, status=..., mimetype=...)].  The constructor
    stores the mimetype as [Content-Type] (werkzeug appends a charset
    parameter only to text, XML and JavaScript types) and, for a body
    given as a string or bytes, sets [Content-Length].  The body is taken
    as bytes; [full.Response_init] below is the constructor on a [str]
    body, which is encoded first and may not be encodable. *)
Definition Response_init (response : string) (status : Z) (mimetype : string)
  : Response :=
  {| data := response;
     status := status;
     headers :=
       <["Content-Length" := pretty (N.of_nat (String.length response))]>
         (<["Content-Type" := mimetype]> ∅) |}.

(** [resp.headers[key] = value] *)
Definition headers_setitem (resp : Response) (key value : string) : Response :=
  {| data := data resp;
     status := status resp;
     headers := <[key := value]> (headers resp) |}.
End flask.

(** ** The module [adsb_proxy] *)

Definition DZ_LAT : PyFloat := {| mantissa := 42703153; scale := 6 |}.
Definition DZ_LON : PyFloat := {| mantissa := -87958641; scale := 6 |}.

(** [f"https://api.adsb.lol/v2/point/{DZ_LAT}/{DZ_LON}/20"] *)
Definition ADSB_LOL_URL : string :=
  "https://api.adsb.lol/v2/point/" +:+ format_float DZ_LAT +:+ "/"
  +:+ format_float DZ_LON +:+ "/20".

(** The literal ['{"error":"ADS-B proxy exception","detail":"%s"}']. *)
Definition error_template : string :=
  "{" +:+ DQ +:+ "error" +:+ DQ +:+ ":" +:+ DQ +:+ "ADS-B proxy exception" +:+ DQ
  +:+ "," +:+ DQ +:+ "detail" +:+ DQ +:+ ":" +:+ DQ +:+ "%s" +:+ DQ +:+ "}".

(** The view function. *)
Definition adsb : Py flask.Response :=
  try_except
    (r ← requests_get ADSB_LOL_URL 5;
     let resp :=
       flask.Response_init (requests.content r) (requests.status_code r)
                           "application/json" in
     let resp := flask.headers_setitem resp "Access-Control-Allow-Origin" "*" in
     mret resp)
    (fun e =>
     print ["ADS-B proxy exception:"; repr e];;
     body ← lift (percent_format error_template [str e]);
     let resp := flask.Response_init body 500 "application/json" in
     let resp := flask.headers_setitem resp "Access-Control-Allow-Origin" "*" in
     mret resp).

(** ** Flask: registration of the route and dispatch of a request *)

(** The inbound request as werkzeug presents it. [method] is the request
    method in upper case, [path] the path without the query string. *)
Record Request := mkRequest {
  method : string;
  path : string;
  query_string : string;
  request_headers : gmap string string;
  request_body : string;
}.

(** A URL rule with its view function.  A view reads no argument: the
    rule of this program has no URL variable, and the module does not
    import Flask's [request] object. *)
Record Rule := mkRule {
  rule : string;
  methods : gset string;
  provide_automatic_options : bool;
  view_func : Py flask.Response;
}.

(** [@app.route(rule, methods=...)] over a view, with Flask's defaults:
    without [methods=] the rule answers GET; OPTIONS is added and answered
    by Flask itself unless the view lists it; a rule that answers GET also
    answers HEAD. *)
Definition route (r : string) (ms : option (gset string)) (f : Py flask.Response)
  : Rule :=
  let ms := default {["GET"]} ms in
  let auto := bool_decide ("OPTIONS" ∉ ms) in
  let ms := if auto then ms ∪ {["OPTIONS"]} else ms in
  let ms := if bool_decide ("GET" ∈ ms ∧ "HEAD" ∉ ms) then ms ∪ {["HEAD"]} else ms in
  {| rule := r; methods := ms; provide_automatic_options := auto; view_func := f |}.

(** The application object after the module is imported: the one route. *)
Definition app : list Rule := [route "/adsb" None adsb].

Inductive Match :=
| Matched (r : Rule)
| NoMethod (valid : gset string)
| NoRule.

(** Matching of a request against the URL map: the first rule whose path
    and method both fit; when only paths fit, the methods they accept. *)
Fixpoint url_match (rules : list Rule) (req : Request) (have_match_for : gset string)
  : Match :=
  match rules with
  | [] => if bool_decide (have_match_for = ∅) then NoRule else NoMethod have_match_for
  | r :: rs =>
      if String.eqb (rule r) (path req) then
        if bool_decide (method req ∈ methods r) then Matched r
        else url_match rs req (have_match_for ∪ methods r)
      else url_match rs req have_match_for
  end.

(** What the application answers.  Responses that Flask builds by itself
    are kept symbolic; only a view's response is a [flask.Response]. *)
Inductive Served :=
| ViewResponse (resp : flask.Response)
| DefaultOptions (allow : gset string)
| MethodNotAllowed (valid : gset string)
| NotFound
| InternalServerError (e : PyException).

(** Dispatch of one inbound request: routing failures become 404 and 405,
    OPTIONS on a rule with automatic options is answered without the view,
    otherwise the view runs, and an exception that leaves it becomes
    Flask's 500 page. *)
Definition wsgi_app (rules : list Rule) (req : Request) (w : World) : Served * World :=
  match url_match rules req ∅ with
  | NoRule => (NotFound, w)
  | NoMethod valid => (MethodNotAllowed valid, w)
  | Matched r =>
      if provide_automatic_options r && String.eqb (method req) "OPTIONS" then
        (DefaultOptions (methods r), w)
      else
        match view_func r w with
        | (Return resp, w') => (ViewResponse resp, w')
        | (Raise e, w') => (InternalServerError e, w')
        end
  end.

(** ** Well-formed JSON texts (RFC 8259)

    The property the failure response is measured against.  The grammar
    is recognised by a pushdown automaton that reads the text one
    character at a time, so the recogniser is total and needs no fuel.
    Bytes above 127 are accepted inside strings without a check of the
    UTF-8 encoding. *)
Module json.
Local Open Scope char_scope.

Definition dq : ascii := ascii_of_nat 34.
Definition backslash : ascii := "\".

Definition is_ws (c : ascii) : bool :=
  (c =? " ") || (c =? ascii_of_nat 9) || (c =? ascii_of_nat 10)
  || (c =? ascii_of_nat 13).

Definition is_digit (c : ascii) : bool :=
  let n := nat_of_ascii c in (48 <=? n)%nat && (n <=? 57)%nat.

Definition is_hex (c : ascii) : bool :=
  let n := nat_of_ascii c in
  is_digit c || ((65 <=? n)%nat && (n <=? 70)%nat)
  || ((97 <=? n)%nat && (n <=? 102)%nat).

Definition is_control (c : ascii) : bool := (nat_of_ascii c <? 32)%nat.

(** The structure a value is nested in. *)
Inductive container := InObject | InArray.

(** Where the automaton stands inside a string. *)
Inductive in_string := Plain | Escaped | Hex (remaining : nat).

(** Where the automaton stands inside a number. *)
Inductive in_number :=
| Minus | Zero | Int | Dot | Frac | Exp | ExpSign | ExpDigits.

Inductive phase :=
| ExpectValue               (* a value must start here *)
| ExpectValueOrClose        (* just after an opening bracket *)
| ExpectKey                 (* after a comma inside an object *)
| ExpectKeyOrClose          (* just after an opening brace *)
| ExpectColon
| Str (key : bool) (st : in_string)
| Num (st : in_number)
| Lit (rest : string)       (* inside true, false or null *)
| AfterValue.

Definition state : Type := phase * list container.

(** A value has just ended: what may follow it. *)
Definition after_value (stack : list container) (c : ascii) : option state :=
  if is_ws c then Some (AfterValue, stack)
  else
    match stack with
    | [] => None
    | InObject :: outer =>
        if c =? "," then Some (ExpectKey, stack)
        else if c =? "}" then Some (AfterValue, outer)
        else None
    | InArray :: outer =>
        if c =? "," then Some (ExpectValue, stack)
        else if c =? "]" then Some (AfterValue, outer)
        else None
    end.

(** A value starts with [c]. *)
Definition begin_value (stack : list container) (c : ascii) : option state :=
  if c =? "{" then Some (ExpectKeyOrClose, InObject :: stack)
  else if c =? "[" then Some (ExpectValueOrClose, InArray :: stack)
  else if c =? dq then Some (Str false Plain, stack)
  else if c =? "-" then Some (Num Minus, stack)
  else if c =? "0" then Some (Num Zero, stack)
  else if is_digit c then Some (Num Int, stack)
  else if c =? "t" then Some (Lit "rue", stack)
  else if c =? "f" then Some (Lit "alse", stack)
  else if c =? "n" then Some (Lit "ull", stack)
  else None.

Definition step_string (key : bool) (st : in_string) (stack : list container)
    (c : ascii) : option state :=
  match st with
  | Plain =>
      if c =? dq then Some (if key then ExpectColon else AfterValue, stack)
      else if c =? backslash then Some (Str key Escaped, stack)
      else if is_control c then None
      else Some (Str key Plain, stack)
  | Escaped =>
      if (c =? dq) || (c =? backslash) || (c =? "/") || (c =? "b")
         || (c =? "f") || (c =? "n") || (c =? "r") || (c =? "t")
      then Some (Str key Plain, stack)
      else if c =? "u" then Some (Str key (Hex 4), stack)
      else None
  | Hex n =>
      if is_hex c then
        match n with
        | S (S m) => Some (Str key (Hex (S m)), stack)
        | _ => Some (Str key Plain, stack)
        end
      else None
  end.

Definition is_exp_mark (c : ascii) : bool := (c =? "e") || (c =? "E").

Definition step_number (st : in_number) (stack : list container) (c : ascii)
  : option state :=
  match st with
  | Minus =>
      if c =? "0" then Some (Num Zero, stack)
      else if is_digit c then Some (Num Int, stack)
      else None
  | Zero =>
      if c =? "." then Some (Num Dot, stack)
      else if is_exp_mark c then Some (Num Exp, stack)
      else after_value stack c
  | Int =>
      if is_digit c then Some (Num Int, stack)
      else if c =? "." then Some (Num Dot, stack)
      else if is_exp_mark c then Some (Num Exp, stack)
      else after_value stack c
  | Dot => if is_digit c then Some (Num Frac, stack) else None
  | Frac =>
      if is_digit c then Some (Num Frac, stack)
      else if is_exp_mark c then Some (Num Exp, stack)
      else after_value stack c
  | Exp =>
      if (c =? "+") || (c =? "-") then Some (Num ExpSign, stack)
      else if is_digit c then Some (Num ExpDigits, stack)
      else None
  | ExpSign => if is_digit c then Some (Num ExpDigits, stack) else None
  | ExpDigits =>
      if is_digit c then Some (Num ExpDigits, stack) else after_value stack c
  end.

(** One character of input. *)
Definition step (s : state) (c : ascii) : option state :=
  let (ph, stack) := s in
  match ph with
  | ExpectValue =>
      if is_ws c then Some (ExpectValue, stack) else begin_value stack c
  | ExpectValueOrClose =>
      if is_ws c then Some (ExpectValueOrClose, stack)
      else if c =? "]" then Some (AfterValue, tl stack)
      else begin_value stack c
  | ExpectKey =>
      if is_ws c then Some (ExpectKey, stack)
      else if c =? dq then Some (Str true Plain, stack)
      else None
  | ExpectKeyOrClose =>
      if is_ws c then Some (ExpectKeyOrClose, stack)
      else if c =? "}" then Some (AfterValue, tl stack)
      else if c =? dq then Some (Str true Plain, stack)
      else None
  | ExpectColon =>
      if is_ws c then Some (ExpectColon, stack)
      else if c =? ":" then Some (ExpectValue, stack)
      else None
  | Str key st => step_string key st stack c
  | Num st => step_number st stack c
  | Lit rest =>
      match rest with
      | String d rest' =>
          if c =? d then
            Some (match rest' with
                  | EmptyString => AfterValue
                  | _ => Lit rest'
                  end, stack)
          else None
      | EmptyString => None
      end
  | AfterValue => after_value stack c
  end.

(** The run of the automaton over a text; [None] is the reject state. *)
Fixpoint steps (s : option state) (text : string) : option state :=
  match text with
  | EmptyString => s
  | String c text' =>
      match s with
      | Some st => steps (step st c) text'
      | None => None
      end
  end.

(** A text may end after a complete top-level value. *)
Definition accepting (s : option state) : bool :=
  match s with
  | Some (AfterValue, []) => true
  | Some (Num Zero, []) | Some (Num Int, [])
  | Some (Num Frac, []) | Some (Num ExpDigits, []) => true
  | _ => false
  end.

Definition well_formed (text : string) : bool :=
  accepting (steps (Some (ExpectValue, [])) text).

(** A Python string that can stand between two quotes as it is: no
    quote, no backslash and no control character. *)
Fixpoint needs_no_escape (s : string) : bool :=
  match s with
  | EmptyString => true
  | String c s' =>
      negb (c =? dq) && negb (c =? backslash) && negb (is_control c)
      && needs_no_escape s'
  end.
End json.

(** ** Vocabulary of the specification *)

(** The outcome that the handler's outbound GET meets in world [w]: the
    next call is number [length (outbound w)], and the handler issues it
    with the module's URL and a timeout of 5. *)
Definition pending (w : World) : Outcome :=
  upstream w (length (outbound w)) ADSB_LOL_URL 5.

(** The error envelope as the specification writes it, with [detail]
    placed between the quotes of the second field. *)
Definition error_envelope (detail : string) : string :=
  "{" +:+ DQ +:+ "error" +:+ DQ +:+ ":" +:+ DQ +:+ "ADS-B proxy exception" +:+ DQ
  +:+ "," +:+ DQ +:+ "detail" +:+ DQ +:+ ":" +:+ DQ +:+ detail +:+ DQ +:+ "}".

(** A GET request for the route, with anything else left to the caller. *)
Definition get_adsb (query : string) (hs : gmap string string) (b : string) : Request :=
  {| method := "GET"; path := "/adsb"; query_string := query;
     request_headers := hs; request_body := b |}.


(** The envelope is its detail between two fixed strings. *)
Definition envelope_head : string :=
  "{" +:+ DQ +:+ "error" +:+ DQ +:+ ":" +:+ DQ +:+ "ADS-B proxy exception" +:+ DQ
  +:+ "," +:+ DQ +:+ "detail" +:+ DQ +:+ ":" +:+ DQ.
Definition envelope_tail : string := DQ +:+ "}".


(** ** Concrete worlds and outcomes used as test inputs *)

(** A world whose upstream gives the same outcome to every call, with no
    call issued and nothing printed yet. *)
Definition world_of (o : Outcome) : World :=
  {| upstream := fun _ _ _ => o; outbound := []; stdout := [] |}.

(** Scenario A of the specification: 200 with an empty aircraft list. *)
Definition upstream_200 : requests.Response :=
  {| requests.status_code := 200;
     requests.content := "{" +:+ DQ +:+ "ac" +:+ DQ +:+ ":[]}";
     requests.headers := {["Content-Type" := "application/json; charset=utf-8"]} |}.

(** Scenario B: 503 with a rate-limit notice, declared as plain text. *)
Definition upstream_503 : requests.Response :=
  {| requests.status_code := 503;
     requests.content :=
       "{" +:+ DQ +:+ "error" +:+ DQ +:+ ":" +:+ DQ +:+ "rate limited" +:+ DQ +:+ "}";
     requests.headers :=
       {["Content-Type" := "text/plain"; "Cache-Control" := "no-store"]} |}.

(** Scenario C: the read times out. *)
Definition read_timeout : PyException :=
  let msg :=
    "HTTPSConnectionPool(host='api.adsb.lol', port=443): Read timed out. (read timeout=5)" in
  {| repr := "ReadTimeout(ReadTimeoutError(" +:+ DQ +:+ msg +:+ DQ +:+ "))";
     str := msg |}.

(** [MemoryError()], raised while a very large upstream body is read:
    an exception without arguments, whose [str] is empty. *)
Definition memory_error : PyException :=
  {| repr := "MemoryError()"; str := EmptyString |}.

(** What [requests.get] raises when the upstream host does not resolve
    (requests on urllib3 2.x): the message quotes the inner error with
    double quotes, because that error's own text holds single quotes. *)
Definition name_resolution_error : PyException :=
  let inner :=
    "<urllib3.connection.HTTPSConnection object at 0x7f3c2a1d5e50>: "
    +:+ "Failed to resolve 'api.adsb.lol' ([Errno -2] Name or service not known)" in
  let msg :=
    "HTTPSConnectionPool(host='api.adsb.lol', port=443): Max retries exceeded "
    +:+ "with url: /v2/point/42.703153/-87.958641/20 (Caused by NameResolutionError("
    +:+ DQ +:+ inner +:+ DQ +:+ "))" in
  let inner_escaped :=
    "<urllib3.connection.HTTPSConnection object at 0x7f3c2a1d5e50>: "
    +:+ "Failed to resolve \'api.adsb.lol\' ([Errno -2] Name or service not known)" in
  {| repr :=
       "ConnectionError(MaxRetryError('HTTPSConnectionPool(host=\'api.adsb.lol\', "
       +:+ "port=443): Max retries exceeded with url: "
       +:+ "/v2/point/42.703153/-87.958641/20 (Caused by NameResolutionError("
       +:+ DQ +:+ inner_escaped +:+ DQ +:+ "))'))";
     str := msg |}.


(** Scenario A answered by an upstream that declares HTML and sets a
    cookie. *)
Definition upstream_200_html : requests.Response :=
  {| requests.status_code := 200;
     requests.content := requests.content upstream_200;
     requests.headers :=
       {["Content-Type" := "text/html"; "Set-Cookie" := "id=1";
         "Content-Encoding" := "gzip"]} |}.

(** ** Requests in sequence *)

(** Whether a request is one the route hands to the view: the path is the
    route's and the method is GET or HEAD. *)
Definition reaches_view (req : Request) : bool :=
  String.eqb (path req) "/adsb"
  && (String.eqb (method req) "GET" || String.eqb (method req) "HEAD").

(** Requests answered one after another, each in the world the one
    before it left; the program keeps nothing else between requests. *)
Fixpoint serve (rules : list Rule) (reqs : list Request) (w : World)
  : list Served * World :=
  match reqs with
  | [] => ([], w)
  | req :: rest =>
      let (answer, w1) := wsgi_app rules req w in
      let (answers, w2) := serve rules rest w1 in
      (answer :: answers, w2)
  end.

(** How many requests of a sequence reach the view. *)
Definition runs_of_view (reqs : list Request) : nat :=
  length (List.filter reaches_view reqs).

(** Flask's own 500 page, the answer to an exception that left a view. *)
Definition is_internal_server_error (a : Served) : bool :=
  match a with
  | InternalServerError _ => true
  | _ => false
  end.


Definition three_requests : list Request :=
  [get_adsb EmptyString ∅ EmptyString;
   {| method := "POST"; path := "/adsb"; query_string := EmptyString;
      request_headers := ∅; request_body := EmptyString |};
   {| method := "GET"; path := "/"; query_string := EmptyString;
      request_headers := ∅; request_body := EmptyString |}].

(** An upstream that fails on the first call and answers afterwards. *)
Definition flaky_world : World :=
  {| upstream := fun n _ _ =>
       match n with
       | O => Raises read_timeout
       | S _ => Returns upstream_200
       end;
     outbound := []; stdout := [] |}.

(** ** The handler with the failure modes of its library calls

    Two calls of the [except] block can raise themselves, and nothing
    guards them: [print], when standard output does not take the record,
    and [Response] on a [str] body, which encodes the text to UTF-8 and
    fails on a surrogate code point.  The module below is the handler on
    such a runtime.  A Python [str] is held as the bytes of its UTF-8
    encoding, a surrogate code point as the three bytes its number would
    take (237, then a byte from 160 to 191, then one more). *)
Module full.

(** What standard output does with a record, by the number of records
    written before: [None] when it is written, otherwise the exception
    that [print] raises (a closed stream, a broken pipe, a character the
    stream's encoding lacks). *)
Definition Console : Type := nat → string → option PyException.

(** [print] on that stream.  A refused record is not written. *)
Definition print (console : Console) (args : list string) : Py unit :=
  fun w =>
    match console (length (stdout w)) (join " " args +:+ LF) with
    | Some e => (Raise e, w)
    | None => print args w
    end.

(** Whether the text starts, after a byte 237, inside the range of the
    surrogates. *)
Definition in_surrogate_range (rest : string) : bool :=
  match rest with
  | EmptyString => false
  | String b _ => (160 <=? nat_of_ascii b)%nat && (nat_of_ascii b <=? 191)%nat
  end.

(** Whether the text holds a surrogate code point. *)
Fixpoint has_surrogate (s : string) : bool :=
  match s with
  | EmptyString => false
  | String a rest =>
      ((nat_of_ascii a =? 237)%nat && in_surrogate_range rest) || has_surrogate rest
  end.

(** What [str.encode] raises on a surrogate; the message of the real
    exception also names the character and its position. *)
Definition UnicodeEncodeError : PyException :=
  {| repr := "UnicodeEncodeError('utf-8', ..., 'surrogates not allowed')";
     str := "'utf-8' codec can't encode character: surrogates not allowed" |}.

(** [Response(response, status=..., mimetype=...)] on a [str] body: the
    text is encoded to UTF-8 before anything is stored. *)
Definition Response_init (response : string) (status : Z) (mimetype : string)
  : Result flask.Response :=
  if has_surrogate response then Raise UnicodeEncodeError
  else Return (flask.Response_init response status mimetype).

(** The view function.  The [try] block is as before: its body is
    bytes, so nothing is encoded there. *)
Definition adsb (console : Console) : Py flask.Response :=
  try_except
    (r ← requests_get ADSB_LOL_URL 5;
     let resp :=
       flask.Response_init (requests.content r) (requests.status_code r)
                           "application/json" in
     let resp := flask.headers_setitem resp "Access-Control-Allow-Origin" "*" in
     mret resp)
    (fun e =>
     print console ["ADS-B proxy exception:"; repr e];;
     body ← lift (percent_format error_template [str e]);
     resp ← lift (Response_init body 500 "application/json");
     let resp := flask.headers_setitem resp "Access-Control-Allow-Origin" "*" in
     mret resp).

(** The application object on that runtime. *)
Definition app (console : Console) : list Rule := [route "/adsb" None (adsb console)].
End full.

(** The record the handler prints for [e]. *)
Definition log_record (e : PyException) : string :=
  "ADS-B proxy exception: " +:+ repr e +:+ LF.

(** Runtimes and an exception used as test inputs: a stream that takes
    everything, a closed one, and a message with the surrogate U+DC80 (an
    undecodable byte of a file name or header, kept by Python as such). *)
Definition open_stdout : full.Console := fun _ _ => None.

Definition closed_stdout : full.Console :=
  fun _ _ => Some (ValueError "I/O operation on closed file.").

Definition surrogate_error : PyException :=
  let bad := String (ascii_of_nat 237) (String (ascii_of_nat 178)
               (String (ascii_of_nat 128) EmptyString)) in
  {| repr := "OSError('cannot read header \udc80')";
     str := "cannot read header " +:+ bad |}.

(** * Properties *)

(** ** The model on concrete inputs *)

Example url_value :
  ADSB_LOL_URL = "https://api.adsb.lol/v2/point/42.703153/-87.958641/20".
Proof. vm_compute. reflexivity. Qed.

Lemma adsb_rule_methods :
  methods (route "/adsb" None adsb) = {["GET"; "HEAD"; "OPTIONS"]}.
Proof. vm_compute. reflexivity. Qed.

Example json_scenario_A : json.well_formed ("{" +:+ DQ +:+ "ac" +:+ DQ +:+ ":[]}") = true.
Proof. vm_compute. reflexivity. Qed.

Example json_nested :
  json.well_formed (" [1, -0.5e+3, true, null, {" +:+ DQ +:+ "a\n" +:+ DQ
                    +:+ " : [ ] , " +:+ DQ +:+ DQ +:+ ":{}}, false] ") = true.
Proof. vm_compute. reflexivity. Qed.

Example json_rejects :
  map json.well_formed
    ["{"; "[1,]"; "01"; "1."; "tru"; "{a:1}"; DQ +:+ "\x" +:+ DQ; "[1] 2"; EmptyString;
     "{" +:+ DQ +:+ "a" +:+ DQ +:+ ":1,}"; "]"; "- 1"]
  = [false; false; false; false; false; false; false; false; false; false; false; false].
Proof. vm_compute. reflexivity. Qed.

(** Scenario C in full: the timeout message needs no escape, and the body
    of the 500 response is well-formed JSON. *)
Example scenario_C_body_is_json :
  json.needs_no_escape (str read_timeout) = true
  ∧ json.well_formed (error_envelope (str read_timeout)) = true.
Proof. split; vm_compute; reflexivity. Qed.

(** ** Facts about strings and about the recogniser *)

Lemma append_cons (c : ascii) (a b : string) :
  String c a +:+ b = String c (a +:+ b).
Proof. reflexivity. Qed.

Lemma length_append (a b : string) :
  String.length (a +:+ b) = (String.length a + String.length b)%nat.
Proof.
  induction a as [|c a IH]; [reflexivity|].
  rewrite append_cons. cbn [String.length Nat.add]. now rewrite IH.
Qed.

Lemma append_inv_head (p a b : string) : p +:+ a = p +:+ b → a = b.
Proof.
  induction p as [|c p IH]; intros H; [exact H|].
  rewrite !append_cons in H. injection H as H. exact (IH H).
Qed.

Lemma append_inv_tail (t a b : string) : a +:+ t = b +:+ t → a = b.
Proof.
  revert b. induction a as [|c a IH]; intros [|d b] H.
  - reflexivity.
  - apply (f_equal String.length) in H.
    rewrite !length_append in H. cbn [String.length] in H. lia.
  - apply (f_equal String.length) in H.
    rewrite !length_append in H. cbn [String.length] in H. lia.
  - rewrite !append_cons in H. injection H as -> H. f_equal. exact (IH b H).
Qed.

Lemma error_envelope_split (detail : string) :
  error_envelope detail = envelope_head +:+ detail +:+ envelope_tail.
Proof. reflexivity. Qed.

(** The envelope determines its detail. *)
Lemma error_envelope_inj (a b : string) :
  error_envelope a = error_envelope b → a = b.
Proof.
  rewrite !error_envelope_split. intros H.
  apply (append_inv_tail envelope_tail), (append_inv_head envelope_head), H.
Qed.

Lemma steps_none (text : string) : json.steps None text = None.
Proof. destruct text; reflexivity. Qed.

Lemma steps_append (s : option json.state) (a b : string) :
  json.steps s (a +:+ b) = json.steps (json.steps s a) b.
Proof.
  revert s. induction a as [|c a IH]; intros s; [reflexivity|].
  rewrite append_cons. cbn [json.steps].
  destruct s as [st|]; [apply IH | now rewrite steps_none].
Qed.

(** Inside a string, characters that need no escape leave the automaton
    where it is. *)
Lemma steps_plain_string (key : bool) (stack : list json.container) (s : string) :
  json.needs_no_escape s = true →
  json.steps (Some (json.Str key json.Plain, stack)) s
  = Some (json.Str key json.Plain, stack).
Proof.
  induction s as [|c s IH]; cbn [json.needs_no_escape json.steps]; [reflexivity|].
  intros H.
  apply andb_prop in H as [H Hs]. apply andb_prop in H as [H Hc].
  apply andb_prop in H as [Hq Hb].
  apply negb_true_iff in Hq, Hb, Hc.
  cbn [json.step json.step_string]. rewrite Hq, Hb, Hc. exact (IH Hs).
Qed.

(** The envelope is well-formed JSON whenever its detail needs no escape. *)
Lemma error_envelope_well_formed (detail : string) :
  json.needs_no_escape detail = true →
  json.well_formed (error_envelope detail) = true.
Proof.
  intros Hd. unfold json.well_formed.
  rewrite error_envelope_split.
  rewrite (steps_append _ envelope_head), (steps_append _ detail).
  change (json.steps (Some (json.ExpectValue, [])) envelope_head)
    with (Some (json.Str false json.Plain, [json.InObject])).
  rewrite (steps_plain_string false [json.InObject] detail Hd).
  reflexivity.
Qed.

(** ** The two paths of the handler *)

Lemma percent_format_template (s : string) :
  percent_format error_template [s] = Return (error_envelope s).
Proof. reflexivity. Qed.

Lemma adsb_success_path (w : World) (r : requests.Response) :
  pending w = Returns r →
  adsb w =
    (Return
       (flask.headers_setitem
          (flask.Response_init (requests.content r) (requests.status_code r)
                               "application/json")
          "Access-Control-Allow-Origin" "*"),
     {| upstream := upstream w;
        outbound := outbound w ++ [mkCall ADSB_LOL_URL 5];
        stdout := stdout w |}).
Proof.
  unfold pending. intros Hup.
  unfold adsb, try_except, mbind, Py_bind, bind, requests_get.
  rewrite Hup. reflexivity.
Qed.

Lemma adsb_failure_path (w : World) (e : PyException) :
  pending w = Raises e →
  adsb w =
    (Return
       (flask.headers_setitem
          (flask.Response_init (error_envelope (str e)) 500 "application/json")
          "Access-Control-Allow-Origin" "*"),
     {| upstream := upstream w;
        outbound := outbound w ++ [mkCall ADSB_LOL_URL 5];
        stdout := stdout w ++ ["ADS-B proxy exception: " +:+ repr e +:+ LF] |}).
Proof.
  unfold pending. intros Hup.
  unfold adsb, try_except, mbind, Py_bind, bind, requests_get.
  rewrite Hup. cbn [lift print].
  unfold print, lift. rewrite percent_format_template. reflexivity.
Qed.

(** The view never lets an exception out, and each run issues its one
    outbound GET. *)
Lemma adsb_never_raises (w : World) :
  ∃ resp w',
    adsb w = (Return resp, w')
    ∧ outbound w' = (outbound w ++ [mkCall ADSB_LOL_URL 5])%list.
Proof.
  destruct (pending w) as [r|e] eqn:Hup.
  - rewrite (adsb_success_path w r Hup). eexists _, _. split; reflexivity.
  - rewrite (adsb_failure_path w e Hup). eexists _, _. split; reflexivity.
Qed.

(** Headers of a freshly shaped response. *)
Lemma shaped_content_type (b : string) (st : Z) :
  flask.headers
    (flask.headers_setitem (flask.Response_init b st "application/json")
                           "Access-Control-Allow-Origin" "*")
  !! "Content-Type" = Some "application/json".
Proof.
  cbn [flask.headers flask.headers_setitem flask.Response_init].
  rewrite lookup_insert_ne by discriminate.
  rewrite lookup_insert_ne by discriminate.
  apply lookup_insert_eq.
Qed.

Lemma shaped_cors (b : string) (st : Z) (mt : string) :
  flask.headers
    (flask.headers_setitem (flask.Response_init b st mt)
                           "Access-Control-Allow-Origin" "*")
  !! "Access-Control-Allow-Origin" = Some "*".
Proof.
  cbn [flask.headers flask.headers_setitem]. apply lookup_insert_eq.
Qed.

(** A GET on the path matches the route. *)
Lemma wsgi_get_adsb_match (req : Request) :
  path req = "/adsb" → method req = "GET" →
  url_match app req ∅ = Matched (route "/adsb" None adsb).
Proof.
  intros Hp Hm. unfold app, url_match.
  rewrite Hp. cbn [rule route].
  change (("/adsb" =? "/adsb")%string) with true. cbn match.
  rewrite bool_decide_eq_true_2
    by (rewrite adsb_rule_methods, Hm; set_solver).
  reflexivity.
Qed.

(** The route dispatches a GET to the view. *)
Lemma wsgi_get_adsb (req : Request) (w : World) :
  path req = "/adsb" → method req = "GET" →
  wsgi_app app req w =
    match adsb w with
    | (Return resp, w') => (ViewResponse resp, w')
    | (Raise e, w') => (InternalServerError e, w')
    end.
Proof.
  intros Hp Hm. unfold wsgi_app.
  rewrite (wsgi_get_adsb_match req Hp Hm), Hm. reflexivity.
Qed.

(** ** C1: the success path *)

(** C1. When the outbound GET completes with status code S and body B,
    a GET on /adsb is answered by the view's response, which has status
    S, body exactly B, content type application/json and the header
    Access-Control-Allow-Origin: *. *)
Theorem success_relays_status_and_body (req : Request) (w : World)
    (r : requests.Response) :
  path req = "/adsb" → method req = "GET" →
  pending w = Returns r →
  ∃ resp w',
    wsgi_app app req w = (ViewResponse resp, w')
    ∧ flask.status resp = requests.status_code r
    ∧ flask.data resp = requests.content r
    ∧ flask.headers resp !! "Content-Type" = Some "application/json"
    ∧ flask.headers resp !! "Access-Control-Allow-Origin" = Some "*".
Proof.
  intros Hp Hm Hup.
  rewrite (wsgi_get_adsb req w Hp Hm), (adsb_success_path w r Hup).
  eexists _, _. split; [reflexivity|].
  split; [reflexivity|]. split; [reflexivity|].
  split; [apply shaped_content_type | apply shaped_cors].
Qed.

Lemma success_relays_status_and_body_witness :
  ∃ resp w',
    wsgi_app app (get_adsb "lat=0&lon=0" ∅ EmptyString) (world_of (Returns upstream_503))
      = (ViewResponse resp, w')
    ∧ flask.status resp = 503
    ∧ flask.data resp = requests.content upstream_503
    ∧ flask.headers resp !! "Content-Type" = Some "application/json"
    ∧ flask.headers resp !! "Access-Control-Allow-Origin" = Some "*".
Proof.
  apply (success_relays_status_and_body
           (get_adsb "lat=0&lon=0" ∅ EmptyString)
           (world_of (Returns upstream_503)) upstream_503);
    reflexivity.
Defined.

(** ** C2: the failure path *)

(** C2, as stated, fails: for an exception whose [str] is empty the
    response is the 500 envelope, and the only detail its body can be
    read with is the empty string. *)
Lemma failure_detail_can_be_empty :
  ∃ resp w',
    adsb (world_of (Raises memory_error)) = (Return resp, w')
    ∧ flask.status resp = 500
    ∧ flask.data resp
      = "{" +:+ DQ +:+ "error" +:+ DQ +:+ ":" +:+ DQ +:+ "ADS-B proxy exception"
        +:+ DQ +:+ "," +:+ DQ +:+ "detail" +:+ DQ +:+ ":" +:+ DQ +:+ DQ +:+ "}"
    ∧ (∀ detail, flask.data resp = error_envelope detail → String.length detail = 0%nat).
Proof.
  eexists _, _. split; [apply adsb_failure_path; reflexivity|].
  split; [reflexivity|]. split; [reflexivity|].
  intros detail H.
  change (error_envelope EmptyString = error_envelope detail) in H.
  apply error_envelope_inj in H. now subst detail.
Qed.

(** A route whose only rule is [/adsb] without [methods=] accepts the
    same three methods whatever its view. *)
Lemma route_methods (view : Py flask.Response) :
  methods (route "/adsb" None view) = {["GET"; "HEAD"; "OPTIONS"]}.
Proof. exact adsb_rule_methods. Qed.

(** Such a route dispatches a GET to its view. *)
Lemma wsgi_get_route (view : Py flask.Response) (req : Request) (w : World) :
  path req = "/adsb" → method req = "GET" →
  wsgi_app [route "/adsb" None view] req w =
    match view w with
    | (Return resp, w') => (ViewResponse resp, w')
    | (Raise e, w') => (InternalServerError e, w')
    end.
Proof.
  intros Hp Hm. unfold wsgi_app, url_match.
  rewrite Hp. cbn [rule route].
  change (("/adsb" =? "/adsb")%string) with true. cbn match.
  rewrite bool_decide_eq_true_2
    by (rewrite route_methods, Hm; set_solver).
  rewrite Hm. reflexivity.
Qed.

(** The fixed parts of the envelope hold no surrogate. *)
Lemma has_surrogate_envelope (detail : string) :
  full.has_surrogate (error_envelope detail) = full.has_surrogate detail.
Proof.
  rewrite error_envelope_split.
  transitivity (full.has_surrogate (detail +:+ envelope_tail)); [reflexivity|].
  induction detail as [|a detail IH]; [reflexivity|].
  rewrite append_cons. cbn [full.has_surrogate]. rewrite IH. f_equal. f_equal.
  destruct detail; reflexivity.
Qed.

(** On a runtime that takes the log record, and for a message that can
    be encoded, the [except] block runs to its end. *)
Lemma full_adsb_failure_path (console : full.Console) (w : World) (e : PyException) :
  pending w = Raises e →
  console (length (stdout w)) (log_record e) = None →
  full.has_surrogate (str e) = false →
  full.adsb console w = adsb w.
Proof.
  intros Hup Hprint Henc. rewrite (adsb_failure_path w e Hup).
  unfold pending in Hup.
  unfold full.adsb, try_except, mbind, Py_bind, bind, requests_get.
  rewrite Hup. unfold full.print. cbn [stdout join].
  change (("ADS-B proxy exception:" +:+ " " +:+ repr e) +:+ LF) with (log_record e).
  rewrite Hprint. unfold print, lift.
  rewrite percent_format_template.
  unfold full.Response_init. rewrite has_surrogate_envelope, Henc. reflexivity.
Qed.

(** C2, amended. When the outbound GET raises an exception [e] of class
    [Exception], standard output takes the handler's log record, and
    [str(e)] can be encoded as UTF-8, a GET on /adsb is answered with
    status 500, content type application/json and the CORS header; when
    moreover [str(e)] holds no quote, backslash or control character, the
    body is exactly the envelope with [str(e)] as its detail, which may be
    the empty string, and it is a well-formed JSON text. *)
Theorem failure_gives_500_envelope_on_runtime (console : full.Console)
    (req : Request) (w : World) (e : PyException) :
  path req = "/adsb" → method req = "GET" →
  pending w = Raises e →
  console (length (stdout w)) (log_record e) = None →
  full.has_surrogate (str e) = false →
  ∃ resp w',
    wsgi_app (full.app console) req w = (ViewResponse resp, w')
    ∧ flask.status resp = 500
    ∧ flask.headers resp !! "Content-Type" = Some "application/json"
    ∧ flask.headers resp !! "Access-Control-Allow-Origin" = Some "*"
    ∧ (json.needs_no_escape (str e) = true →
       flask.data resp = error_envelope (str e)
       ∧ json.well_formed (flask.data resp) = true).
Proof.
  intros Hp Hm Hup Hprint Henc. unfold full.app.
  rewrite (wsgi_get_route _ req w Hp Hm).
  rewrite (full_adsb_failure_path console w e Hup Hprint Henc).
  rewrite (adsb_failure_path w e Hup).
  eexists _, _. split; [reflexivity|]. split; [reflexivity|].
  split; [apply shaped_content_type|]. split; [apply shaped_cors|].
  intros Hplain. split; [reflexivity|].
  apply error_envelope_well_formed, Hplain.
Qed.

Lemma failure_gives_500_envelope_on_runtime_witness :
  ∃ resp w',
    wsgi_app (full.app open_stdout) (get_adsb EmptyString ∅ EmptyString)
             (world_of (Raises read_timeout))
      = (ViewResponse resp, w')
    ∧ flask.status resp = 500
    ∧ flask.headers resp !! "Content-Type" = Some "application/json"
    ∧ flask.headers resp !! "Access-Control-Allow-Origin" = Some "*"
    ∧ (json.needs_no_escape (str read_timeout) = true →
       flask.data resp = error_envelope (str read_timeout)
       ∧ json.well_formed (flask.data resp) = true).
Proof.
  apply (failure_gives_500_envelope_on_runtime open_stdout
           (get_adsb EmptyString ∅ EmptyString)
           (world_of (Raises read_timeout)) read_timeout);
    reflexivity.
Defined.

(** ** C3: content type and CORS header on every response *)


(** ** C4: the 500 body is not always JSON *)

(** C4, at the failing input. The handler does return a response, with
    status 500 and content type application/json, but on a name-resolution
    failure its body is not a well-formed JSON text: the quote inside
    [str(e)] closes the detail string early. *)
Theorem dns_failure_body_is_not_json :
  ∃ resp w',
    adsb (world_of (Raises name_resolution_error)) = (Return resp, w')
    ∧ flask.status resp = 500
    ∧ flask.headers resp !! "Content-Type" = Some "application/json"
    ∧ flask.data resp = error_envelope (str name_resolution_error)
    ∧ json.needs_no_escape (str name_resolution_error) = false
    ∧ json.well_formed (flask.data resp) = false.
Proof.
  eexists _, _. split; [apply adsb_failure_path; reflexivity|].
  split; [reflexivity|]. split; [apply shaped_content_type|].
  split; [reflexivity|]. split; vm_compute; reflexivity.
Qed.

(** ** C5: the outbound target *)

(** C5. The module's URL is one closed string,
    https://api.adsb.lol/v2/point/<lat>/<lon>/20 with the two constants
    formatted into it, and whatever the inbound request (path, method,
    query string, headers, body) every outbound GET the application issues
    while serving it goes to that URL; a GET on /adsb issues exactly one. *)
Theorem outbound_target_is_fixed (req : Request) (w : World) :
  ADSB_LOL_URL
    = "https://api.adsb.lol/v2/point/" +:+ format_float DZ_LAT +:+ "/"
      +:+ format_float DZ_LON +:+ "/20"
  ∧ ADSB_LOL_URL = "https://api.adsb.lol/v2/point/42.703153/-87.958641/20"
  ∧ ∃ issued,
      outbound (wsgi_app app req w).2 = (outbound w ++ issued)%list
      ∧ Forall (fun c => url c = "https://api.adsb.lol/v2/point/42.703153/-87.958641/20")
               issued
      ∧ (path req = "/adsb" → method req = "GET" → length issued = 1%nat).
Proof.
  split; [reflexivity|]. split; [exact url_value|].
  unfold wsgi_app.
  destruct (url_match app req ∅) as [r|valid|] eqn:Hmatch.
  - (* the only rule is the route of [adsb] *)
    assert (r = route "/adsb" None adsb) as ->.
    { unfold app in Hmatch. cbn [url_match] in Hmatch.
      repeat match type of Hmatch with
             | context [if ?b then _ else _] => destruct b
             end; congruence. }
    destruct (provide_automatic_options (route "/adsb" None adsb)
              && (method req =? "OPTIONS")%string) eqn:Hopt.
    + exists []. cbn [snd]. rewrite app_nil_r.
      split; [reflexivity|]. split; [constructor|].
      intros _ Hm. rewrite Hm in Hopt. vm_compute in Hopt. discriminate.
    + cbn [view_func route].
      destruct (adsb_never_raises w) as (resp & w' & Hrun & Hcalls).
      rewrite Hrun. cbn [snd].
      exists [mkCall ADSB_LOL_URL 5].
      split; [exact Hcalls|]. split; [|reflexivity].
      constructor; [exact url_value | constructor].
  - exists []. cbn [snd]. rewrite app_nil_r.
    split; [reflexivity|]. split; [constructor|].
    intros Hp Hm. rewrite wsgi_get_adsb_match in Hmatch by assumption. discriminate.
  - exists []. cbn [snd]. rewrite app_nil_r.
    split; [reflexivity|]. split; [constructor|].
    intros Hp Hm. rewrite wsgi_get_adsb_match in Hmatch by assumption. discriminate.
Qed.

(** ** C7: one outbound call, one log record exactly on failure *)


(** ** C8: the response is a function of the upstream outcome *)



(** ** C9: upstream headers do not reach the response *)

(** C9. Two upstream responses with the same status code and body, and
    any header tables, give the same inbound response, and its header
    table holds three entries only, none taken from upstream: the fixed
    content type, the length of the body, and the CORS header. *)
Theorem upstream_headers_are_dropped (w1 w2 : World) (r1 r2 : requests.Response) :
  pending w1 = Returns r1 → pending w2 = Returns r2 →
  requests.status_code r1 = requests.status_code r2 →
  requests.content r1 = requests.content r2 →
  ∃ resp w1' w2',
    adsb w1 = (Return resp, w1') ∧ adsb w2 = (Return resp, w2')
    ∧ flask.status resp = requests.status_code r1
    ∧ flask.data resp = requests.content r1
    ∧ flask.headers resp
      = <["Access-Control-Allow-Origin" := "*"]>
          (<["Content-Length" :=
               pretty (N.of_nat (String.length (requests.content r1)))]>
             (<["Content-Type" := "application/json"]> ∅)).
Proof.
  intros H1 H2 Hst Hbody.
  rewrite (adsb_success_path w1 r1 H1), (adsb_success_path w2 r2 H2).
  rewrite <- Hst, <- Hbody. eexists _, _, _.
  repeat split; reflexivity.
Qed.

Lemma upstream_headers_are_dropped_witness :
  ∃ resp w1' w2',
    adsb (world_of (Returns upstream_200)) = (Return resp, w1')
    ∧ adsb (world_of (Returns upstream_200_html)) = (Return resp, w2')
    ∧ flask.status resp = 200
    ∧ flask.data resp = requests.content upstream_200
    ∧ flask.headers resp
      = <["Access-Control-Allow-Origin" := "*"]>
          (<["Content-Length" :=
               pretty (N.of_nat (String.length (requests.content upstream_200)))]>
             (<["Content-Type" := "application/json"]> ∅)).
Proof.
  apply (upstream_headers_are_dropped
           (world_of (Returns upstream_200)) (world_of (Returns upstream_200_html))
           upstream_200 upstream_200_html);
    reflexivity.
Defined.

(** ** C10: other methods never reach the view *)

(** C10. A request to /adsb whose method is neither GET nor HEAD nor
    OPTIONS is answered by Flask with 405 Method Not Allowed, listing the
    three methods the rule accepts; the world is left as it was, so the
    view did not run: no outbound call was issued and nothing was
    printed. *)
Theorem other_methods_are_rejected (req : Request) (w : World) :
  path req = "/adsb" →
  method req ∉ ({["GET"; "HEAD"; "OPTIONS"]} : gset string) →
  wsgi_app app req w = (MethodNotAllowed {["GET"; "HEAD"; "OPTIONS"]}, w).
Proof.
  intros Hp Hm. unfold wsgi_app, app, url_match.
  rewrite Hp. cbn [rule route].
  change (("/adsb" =? "/adsb")%string) with true. cbn match.
  rewrite adsb_rule_methods.
  rewrite bool_decide_eq_false_2 by exact Hm.
  rewrite bool_decide_eq_false_2 by set_solver.
  rewrite (left_id_L ∅ (∪)). reflexivity.
Qed.

Lemma other_methods_are_rejected_witness :
  wsgi_app app
    {| method := "POST"; path := "/adsb"; query_string := EmptyString;
       request_headers := ∅; request_body := "{}" |}
    (world_of (Returns upstream_200))
  = (MethodNotAllowed {["GET"; "HEAD"; "OPTIONS"]}, world_of (Returns upstream_200)).
Proof.
  apply other_methods_are_rejected; [reflexivity|].
  vm_compute. intros H. discriminate H.
Defined.

(** * Further properties of the route and of the handler *)

(** ** What one run of the handler leaves behind *)

Lemma adsb_frame (w : World) :
  ∃ resp w',
    adsb w = (Return resp, w')
    ∧ upstream w' = upstream w
    ∧ outbound w' = (outbound w ++ [mkCall ADSB_LOL_URL 5])%list
    ∧ ∃ printed, stdout w' = (stdout w ++ printed)%list ∧ (length printed ≤ 1)%nat.
Proof.
  destruct (pending w) as [r|e] eqn:Hup.
  - rewrite (adsb_success_path w r Hup). eexists _, _.
    repeat split. exists []. cbn [stdout length]. rewrite app_nil_r. split; [reflexivity | lia].
  - rewrite (adsb_failure_path w e Hup). eexists _, _.
    repeat split. eexists [_]. cbn [stdout length]. split; [reflexivity | lia].
Qed.

(** ** Dispatch by path and method *)

Lemma reaches_view_spec (req : Request) :
  reaches_view req = true
  ↔ path req = "/adsb" ∧ (method req = "GET" ∨ method req = "HEAD").
Proof.
  unfold reaches_view.
  rewrite andb_true_iff, orb_true_iff, !String.eqb_eq. reflexivity.
Qed.

Lemma adsb_rule_automatic_options :
  provide_automatic_options (route "/adsb" None adsb) = true.
Proof. vm_compute. reflexivity. Qed.

(** A request that reaches the view is answered by one run of [adsb]. *)
Lemma wsgi_view (req : Request) (w : World) :
  reaches_view req = true →
  wsgi_app app req w =
    match adsb w with
    | (Return resp, w') => (ViewResponse resp, w')
    | (Raise e, w') => (InternalServerError e, w')
    end.
Proof.
  intros Hreach. apply reaches_view_spec in Hreach as [Hp Hm].
  unfold wsgi_app, app, url_match.
  cbn [rule route]. rewrite Hp.
  change (("/adsb" =? "/adsb")%string) with true. cbn match.
  rewrite bool_decide_eq_true_2
    by (rewrite adsb_rule_methods; destruct Hm as [-> | ->]; set_solver).
  rewrite adsb_rule_automatic_options.
  destruct Hm as [-> | ->]; reflexivity.
Qed.

(** Any other request leaves the world as it was. *)
Lemma wsgi_no_view (req : Request) (w : World) :
  reaches_view req = false →
  (wsgi_app app req w).2 = w
  ∧ is_internal_server_error (wsgi_app app req w).1 = false.
Proof.
  intros Hreach. unfold wsgi_app, app, url_match. cbn [rule route].
  destruct (String.eqb_spec "/adsb" (path req)) as [Hp|Hp].
  - case_bool_decide as Hin.
    + rewrite adsb_rule_automatic_options.
      destruct (String.eqb_spec (method req) "OPTIONS") as [Hm|Hm];
        [split; reflexivity|].
      exfalso. rewrite adsb_rule_methods in Hin.
      assert (reaches_view req = true) as Hyes; [|congruence].
      apply reaches_view_spec. split; [congruence|].
      apply elem_of_union in Hin as [Hin|Hin];
        [|apply elem_of_singleton in Hin; contradiction].
      apply elem_of_union in Hin as [Hin|Hin];
        apply elem_of_singleton in Hin; [left | right]; exact Hin.
    + case_bool_decide; split; reflexivity.
  - split; reflexivity.
Qed.

(** X2. A request for another path never runs the handler: whatever Flask
    answers, no outbound GET is issued and nothing is printed. *)
Theorem other_paths_leave_the_world (req : Request) (w : World) :
  path req ≠ "/adsb" →
  (wsgi_app app req w).2 = w.
Proof.
  intros Hp. apply wsgi_no_view.
  destruct (reaches_view req) eqn:Hreach; [|reflexivity].
  apply reaches_view_spec in Hreach as [Hyes _]. contradiction.
Qed.

Lemma other_paths_leave_the_world_witness :
  (wsgi_app app
     {| method := "GET"; path := "/adsb/"; query_string := EmptyString;
        request_headers := ∅; request_body := EmptyString |}
     flaky_world).2 = flaky_world.
Proof.
  apply other_paths_leave_the_world. cbn [path]. discriminate.
Defined.

(** X3. OPTIONS on the route is answered by Flask itself with the methods the
    rule accepts; the handler does not run, so no outbound GET is issued
    for a CORS preflight. *)
Theorem options_is_answered_without_the_view (req : Request) (w : World) :
  path req = "/adsb" → method req = "OPTIONS" →
  wsgi_app app req w = (DefaultOptions {["GET"; "HEAD"; "OPTIONS"]}, w).
Proof.
  intros Hp Hm. unfold wsgi_app, app, url_match.
  cbn [rule route]. rewrite Hp.
  change (("/adsb" =? "/adsb")%string) with true. cbn match.
  rewrite bool_decide_eq_true_2 by (rewrite adsb_rule_methods, Hm; set_solver).
  rewrite adsb_rule_automatic_options, adsb_rule_methods, Hm. reflexivity.
Qed.

Lemma options_is_answered_without_the_view_witness :
  wsgi_app app
    {| method := "OPTIONS"; path := "/adsb"; query_string := EmptyString;
       request_headers := {["Origin" := "https://example.org"]};
       request_body := EmptyString |}
    flaky_world
  = (DefaultOptions {["GET"; "HEAD"; "OPTIONS"]}, flaky_world).
Proof.
  apply options_is_answered_without_the_view; reflexivity.
Defined.



(** ** Requests in sequence *)

Lemma serve_append (reqs1 reqs2 : list Request) (w : World) :
  serve app (reqs1 ++ reqs2) w =
    let (answers1, w1) := serve app reqs1 w in
    let (answers2, w2) := serve app reqs2 w1 in
    ((answers1 ++ answers2)%list, w2).
Proof.
  revert w. induction reqs1 as [|req reqs1 IH]; intros w.
  - rewrite app_nil_l. cbn [serve]. destruct (serve app reqs2 w). reflexivity.
  - rewrite <- app_comm_cons. cbn [serve].
    destruct (wsgi_app app req w) as [answer w1]. rewrite IH.
    destruct (serve app reqs1 w1) as [answers1 w2].
    destruct (serve app reqs2 w2) as [answers2 w3]. reflexivity.
Qed.

Lemma serve_length (reqs : list Request) (w : World) :
  length (serve app reqs w).1 = length reqs.
Proof.
  revert w. induction reqs as [|req reqs IH]; intros w; [reflexivity|].
  cbn [serve]. destruct (wsgi_app app req w) as [answer w1].
  specialize (IH w1). destruct (serve app reqs w1) as [answers w2].
  cbn [fst length] in *. now rewrite IH.
Qed.

Lemma runs_of_view_cons (req : Request) (reqs : list Request) :
  runs_of_view (req :: reqs)
  = ((if reaches_view req then 1 else 0) + runs_of_view reqs)%nat.
Proof.
  unfold runs_of_view. cbn [List.filter].
  destruct (reaches_view req); reflexivity.
Qed.

(** What a sequence of requests leaves behind. *)
Lemma serve_frame (reqs : list Request) (w : World) :
  upstream (serve app reqs w).2 = upstream w
  ∧ outbound (serve app reqs w).2
    = (outbound w ++ repeat (mkCall ADSB_LOL_URL 5) (runs_of_view reqs))%list
  ∧ ∃ printed,
      stdout (serve app reqs w).2 = (stdout w ++ printed)%list
      ∧ (length printed ≤ runs_of_view reqs)%nat.
Proof.
  revert w. induction reqs as [|req reqs IH]; intros w.
  - change (runs_of_view []) with 0%nat. cbn [serve snd repeat].
    rewrite app_nil_r. repeat split.
    exists []. rewrite app_nil_r. split; [reflexivity | reflexivity].
  - rewrite runs_of_view_cons. cbn [serve].
    destruct (reaches_view req) eqn:Hreach.
    + rewrite (wsgi_view req w Hreach).
      destruct (adsb_frame w) as (resp & w1 & Hrun & Hup & Hout & p1 & Hp1 & Hl1).
      rewrite Hrun.
      destruct (IH w1) as (Hup' & Hout' & p2 & Hp2 & Hl2).
      destruct (serve app reqs w1) as [answers w2]. cbn [snd] in *.
      split; [congruence|]. split.
      * rewrite Hout', Hout, <- app_assoc. reflexivity.
      * exists (p1 ++ p2)%list. rewrite Hp2, Hp1, <- app_assoc, length_app.
        split; [reflexivity | lia].
    + destruct (wsgi_no_view req w Hreach) as [Hsame _].
      destruct (wsgi_app app req w) as [answer w1]. cbn [snd] in Hsame. subst w1.
      destruct (IH w) as (Hup' & Hout' & p2 & Hp2 & Hl2).
      destruct (serve app reqs w) as [answers w2]. cbn [snd] in *.
      split; [assumption|]. split; [assumption|].
      exists p2. split; [assumption | lia].
Qed.

(** X6. Nothing is cached. Over any sequence of requests, each request that
    reaches the view costs exactly one outbound GET to the module's URL
    with timeout 5, and the others cost none; every request is answered. *)
Theorem every_view_request_costs_one_call (reqs : list Request) (w : World) :
  outbound (serve app reqs w).2
  = (outbound w ++ repeat (mkCall ADSB_LOL_URL 5) (runs_of_view reqs))%list
  ∧ length (serve app reqs w).1 = length reqs.
Proof.
  split; [apply serve_frame | apply serve_length].
Qed.

(** X7. Standard output is only appended to, with at most one record for
    each request that reached the view. *)
Theorem stdout_grows_by_at_most_one_per_call (reqs : list Request) (w : World) :
  ∃ printed,
    stdout (serve app reqs w).2 = (stdout w ++ printed)%list
    ∧ (length printed ≤ runs_of_view reqs)%nat.
Proof.
  apply serve_frame.
Qed.

(** X8. No outcome sticks. After any sequence of requests, failed ones
    included, a request that reaches the view is answered from the outcome
    of its own outbound GET: when that call returns, the answer has the
    status and body of that upstream response. *)
Theorem later_request_sees_its_own_outcome (reqs : list Request) (req : Request)
    (w : World) (r : requests.Response) :
  reaches_view req = true →
  upstream w (length (outbound w) + runs_of_view reqs) ADSB_LOL_URL 5 = Returns r →
  ∃ answers resp w',
    serve app (reqs ++ [req]) w = ((answers ++ [ViewResponse resp])%list, w')
    ∧ length answers = length reqs
    ∧ flask.status resp = requests.status_code r
    ∧ flask.data resp = requests.content r.
Proof.
  intros Hreach Hup. rewrite serve_append.
  pose proof (serve_frame reqs w) as (Hsame & Hout & _).
  pose proof (serve_length reqs w) as Hlen.
  destruct (serve app reqs w) as [answers w1]. cbn [fst snd] in *.
  assert (pending w1 = Returns r) as Hpending.
  { unfold pending. rewrite Hsame, Hout, length_app, repeat_length. exact Hup. }
  cbn [serve]. rewrite (wsgi_view req w1 Hreach), (adsb_success_path w1 r Hpending).
  eexists _, _, _. split; [reflexivity|]. split; [exact Hlen|]. split; reflexivity.
Qed.

Lemma later_request_sees_its_own_outcome_witness :
  ∃ answers resp w',
    serve app (three_requests ++ [get_adsb "retry=1" ∅ EmptyString]) flaky_world
      = ((answers ++ [ViewResponse resp])%list, w')
    ∧ length answers = length three_requests
    ∧ flask.status resp = requests.status_code upstream_200
    ∧ flask.data resp = requests.content upstream_200.
Proof.
  apply (later_request_sees_its_own_outcome
           three_requests (get_adsb "retry=1" ∅ EmptyString) flaky_world upstream_200);
    reflexivity.
Defined.

(** ** Which failure messages break the JSON body, and what the body tells *)









(** ** The handler on a runtime that can refuse the log record or the body *)

(** When the outbound GET returns, the [except] block does not run, and
    the runtime is not consulted. *)
Lemma full_adsb_returns (console : full.Console) (w : World) (r : requests.Response) :
  pending w = Returns r → full.adsb console w = adsb w.
Proof.
  intros Hup. rewrite (adsb_success_path w r Hup). unfold pending in Hup.
  unfold full.adsb, try_except, mbind, Py_bind, bind, requests_get.
  rewrite Hup. reflexivity.
Qed.

(** When it raises, the three ways through the [except] block. *)
Lemma full_adsb_raises (console : full.Console) (w : World) (e : PyException) :
  pending w = Raises e →
  full.adsb console w =
    match console (length (stdout w)) (log_record e) with
    | Some e' =>
        (Raise e',
         {| upstream := upstream w;
            outbound := outbound w ++ [mkCall ADSB_LOL_URL 5];
            stdout := stdout w |})
    | None =>
        (if full.has_surrogate (str e) then Raise full.UnicodeEncodeError
         else Return
                (flask.headers_setitem
                   (flask.Response_init (error_envelope (str e)) 500
                                        "application/json")
                   "Access-Control-Allow-Origin" "*"),
         {| upstream := upstream w;
            outbound := outbound w ++ [mkCall ADSB_LOL_URL 5];
            stdout := stdout w ++ [log_record e] |})
    end.
Proof.
  intros Hup. unfold pending in Hup.
  unfold full.adsb, try_except, mbind, Py_bind, bind, requests_get.
  rewrite Hup. unfold full.print. cbn [stdout join].
  change (("ADS-B proxy exception:" +:+ " " +:+ repr e) +:+ LF) with (log_record e).
  destruct (console (length (stdout w)) (log_record e)) as [e'|]; [reflexivity|].
  unfold print, lift. rewrite percent_format_template.
  unfold full.Response_init. rewrite has_surrogate_envelope.
  destruct (full.has_surrogate (str e)); reflexivity.
Qed.

Lemma route_automatic_options (view : Py flask.Response) :
  provide_automatic_options (route "/adsb" None view) = true.
Proof. exact adsb_rule_automatic_options. Qed.

(** Dispatch on a route with any view: a request that does not reach the
    view is not answered with Flask's 500 page. *)
Lemma wsgi_route_no_view (view : Py flask.Response) (req : Request) (w : World) :
  reaches_view req = false →
  is_internal_server_error (wsgi_app [route "/adsb" None view] req w).1 = false.
Proof.
  intros Hreach. unfold wsgi_app, url_match. cbn [rule route].
  destruct (String.eqb_spec "/adsb" (path req)) as [Hp|Hp]; [|reflexivity].
  case_bool_decide as Hin; [|case_bool_decide; reflexivity].
  rewrite route_automatic_options.
  destruct (String.eqb_spec (method req) "OPTIONS") as [Hm|Hm]; [reflexivity|].
  exfalso. rewrite route_methods in Hin.
  assert (reaches_view req = true) as Hyes; [|congruence].
  apply reaches_view_spec. split; [congruence|].
  apply elem_of_union in Hin as [Hin|Hin];
    [|apply elem_of_singleton in Hin; contradiction].
  apply elem_of_union in Hin as [Hin|Hin];
    apply elem_of_singleton in Hin; [left | right]; exact Hin.
Qed.

Lemma wsgi_route_view (view : Py flask.Response) (req : Request) (w : World) :
  reaches_view req = true →
  wsgi_app [route "/adsb" None view] req w =
    match view w with
    | (Return resp, w') => (ViewResponse resp, w')
    | (Raise e, w') => (InternalServerError e, w')
    end.
Proof.
  intros Hreach. apply reaches_view_spec in Hreach as [Hp Hm].
  unfold wsgi_app, url_match.
  cbn [rule route]. rewrite Hp.
  change (("/adsb" =? "/adsb")%string) with true. cbn match.
  rewrite bool_decide_eq_true_2
    by (rewrite route_methods; destruct Hm as [-> | ->]; set_solver).
  rewrite route_automatic_options.
  destruct Hm as [-> | ->]; reflexivity.
Qed.

(** X12. The success path does not depend on the runtime: when the
    outbound GET returns, a GET on /adsb is answered with the upstream
    status and body, content type application/json and the CORS header,
    and nothing is printed, even on a standard output that takes no
    record. *)
Theorem success_needs_no_stdout (console : full.Console) (req : Request)
    (w : World) (r : requests.Response) :
  path req = "/adsb" → method req = "GET" →
  pending w = Returns r →
  ∃ resp w',
    wsgi_app (full.app console) req w = (ViewResponse resp, w')
    ∧ flask.status resp = requests.status_code r
    ∧ flask.data resp = requests.content r
    ∧ flask.headers resp !! "Content-Type" = Some "application/json"
    ∧ flask.headers resp !! "Access-Control-Allow-Origin" = Some "*"
    ∧ stdout w' = stdout w.
Proof.
  intros Hp Hm Hup. unfold full.app.
  rewrite (wsgi_get_route _ req w Hp Hm), (full_adsb_returns console w r Hup).
  rewrite (adsb_success_path w r Hup).
  eexists _, _. split; [reflexivity|]. split; [reflexivity|]. split; [reflexivity|].
  split; [apply shaped_content_type|]. split; [apply shaped_cors | reflexivity].
Qed.

Lemma success_needs_no_stdout_witness :
  ∃ resp w',
    wsgi_app (full.app closed_stdout) (get_adsb EmptyString ∅ EmptyString)
             (world_of (Returns upstream_503))
      = (ViewResponse resp, w')
    ∧ flask.status resp = requests.status_code upstream_503
    ∧ flask.data resp = requests.content upstream_503
    ∧ flask.headers resp !! "Content-Type" = Some "application/json"
    ∧ flask.headers resp !! "Access-Control-Allow-Origin" = Some "*"
    ∧ stdout w' = stdout (world_of (Returns upstream_503)).
Proof.
  apply (success_needs_no_stdout closed_stdout
           (get_adsb EmptyString ∅ EmptyString)
           (world_of (Returns upstream_503)) upstream_503);
    reflexivity.
Defined.

(** X13. When the outbound GET raises and standard output refuses the
    log record, the exception that [print] raises leaves the view: the
    caller gets Flask's own 500 page in place of the JSON envelope, the
    one outbound GET has been issued, and nothing has been printed. *)
Theorem print_failure_leaves_the_view (console : full.Console) (req : Request)
    (w : World) (e e' : PyException) :
  path req = "/adsb" → method req = "GET" →
  pending w = Raises e →
  console (length (stdout w)) (log_record e) = Some e' →
  wsgi_app (full.app console) req w
  = (InternalServerError e',
     {| upstream := upstream w;
        outbound := outbound w ++ [mkCall ADSB_LOL_URL 5];
        stdout := stdout w |}).
Proof.
  intros Hp Hm Hup Hprint. unfold full.app.
  rewrite (wsgi_get_route _ req w Hp Hm), (full_adsb_raises console w e Hup).
  rewrite Hprint. reflexivity.
Qed.

Lemma print_failure_leaves_the_view_witness :
  wsgi_app (full.app closed_stdout) (get_adsb EmptyString ∅ EmptyString)
           (world_of (Raises read_timeout))
  = (InternalServerError (ValueError "I/O operation on closed file."),
     {| upstream := upstream (world_of (Raises read_timeout));
        outbound := [mkCall ADSB_LOL_URL 5];
        stdout := [] |}).
Proof.
  apply (print_failure_leaves_the_view closed_stdout
           (get_adsb EmptyString ∅ EmptyString)
           (world_of (Raises read_timeout)) read_timeout);
    reflexivity.
Defined.

(** X14. When the outbound GET raises with a message that holds a
    surrogate code point, the log record is printed, and then building
    the response raises [UnicodeEncodeError], which leaves the view: the
    caller gets Flask's own 500 page in place of the JSON envelope. *)
Theorem unencodable_message_leaves_the_view (console : full.Console)
    (req : Request) (w : World) (e : PyException) :
  path req = "/adsb" → method req = "GET" →
  pending w = Raises e →
  console (length (stdout w)) (log_record e) = None →
  full.has_surrogate (str e) = true →
  wsgi_app (full.app console) req w
  = (InternalServerError full.UnicodeEncodeError,
     {| upstream := upstream w;
        outbound := outbound w ++ [mkCall ADSB_LOL_URL 5];
        stdout := stdout w ++ [log_record e] |}).
Proof.
  intros Hp Hm Hup Hprint Henc. unfold full.app.
  rewrite (wsgi_get_route _ req w Hp Hm), (full_adsb_raises console w e Hup).
  rewrite Hprint, Henc. reflexivity.
Qed.

Lemma unencodable_message_leaves_the_view_witness :
  wsgi_app (full.app open_stdout) (get_adsb EmptyString ∅ EmptyString)
           (world_of (Raises surrogate_error))
  = (InternalServerError full.UnicodeEncodeError,
     {| upstream := upstream (world_of (Raises surrogate_error));
        outbound := [mkCall ADSB_LOL_URL 5];
        stdout := [log_record surrogate_error] |}).
Proof.
  apply (unencodable_message_leaves_the_view open_stdout
           (get_adsb EmptyString ∅ EmptyString)
           (world_of (Raises surrogate_error)) surrogate_error);
    reflexivity.
Defined.

(** X15. Flask's own 500 page has these two causes only. Whatever the
    request, when the application answers with it, the outbound GET
    raised an exception [e], and either standard output refused the log
    record of [e], or it took the record and [str(e)] holds a surrogate. *)
Theorem flask_500_has_two_causes (console : full.Console) (req : Request)
    (w : World) :
  is_internal_server_error (wsgi_app (full.app console) req w).1 = true →
  ∃ e,
    pending w = Raises e
    ∧ (is_Some (console (length (stdout w)) (log_record e))
       ∨ (console (length (stdout w)) (log_record e) = None
          ∧ full.has_surrogate (str e) = true)).
Proof.
  unfold full.app. intros H500.
  destruct (reaches_view req) eqn:Hreach.
  - rewrite (wsgi_route_view _ req w Hreach) in H500.
    destruct (pending w) as [r|e] eqn:Hup.
    + rewrite (full_adsb_returns console w r Hup), (adsb_success_path w r Hup) in H500.
      discriminate H500.
    + exists e. split; [reflexivity|].
      rewrite (full_adsb_raises console w e Hup) in H500.
      destruct (console (length (stdout w)) (log_record e)) as [e'|];
        [left; eauto|].
      right. split; [reflexivity|].
      destruct (full.has_surrogate (str e)); [reflexivity | discriminate H500].
  - rewrite (wsgi_route_no_view _ req w Hreach) in H500. discriminate H500.
Qed.

Lemma flask_500_has_two_causes_witness :
  ∃ e,
    pending (world_of (Raises read_timeout)) = Raises e
    ∧ (is_Some (closed_stdout (length (stdout (world_of (Raises read_timeout))))
                              (log_record e))
       ∨ (closed_stdout (length (stdout (world_of (Raises read_timeout))))
                        (log_record e) = None
          ∧ full.has_surrogate (str e) = true)).
Proof.
  apply (flask_500_has_two_causes closed_stdout
           (get_adsb EmptyString ∅ EmptyString) (world_of (Raises read_timeout))).
  reflexivity.
Defined.
